(** * LPDDR5 simulation SoC: clock plan, clock remapping and checker timings

    A shallow embedding of [litedram/phy/lpddr5/simsoc.py]:
    - [get_clocks], the function that derives the named simulation clock
      domains from the system clock frequency and the two integer ratios;
    - the [clock_mapping] table that [SimSoC.__init__] hands to the DFI rate
      converter;
    - the timing table of [LPDDR5ExampleModule] and the [timings] dictionary
      that [SimSoC.__init__] builds for [DFITimingsChecker].

    The rate converter, the timings checker and the conversion of a timing
    parameter to cycles are used by this file but defined elsewhere; what is
    needed of them is modelled from the specification and marked as such.

    Python integers are unbounded, so they are [Z].  A Python [dict] keeps its
    keys in insertion order and assigning to a key that is already present
    replaces the value in place: a dictionary is an association list updated
    by [Dict.set]. *)

From Stdlib Require Import ZArith List String Ascii Bool Lia.
From Stdlib Require Import DecimalString DecimalZ DecimalPos.
From Stdlib Require Import QArith Qround.
From Stdlib Require Import Floats.SpecFloat.
Import ListNotations.

Local Open Scope string_scope.
Local Open Scope list_scope.
Local Open Scope Z_scope.

(** ** Python dictionaries *)

Module Dict.

Definition dict (V : Type) : Type := list (string * V).

(** [d[k]] / [d.get(k)]. *)
Fixpoint get {V} (d : dict V) (k : string) : option V :=
  match d with
  | [] => None
  | (k', v') :: d' => if String.eqb k' k then Some v' else get d' k
  end.

(** [d[k] = v]: an existing key keeps its position, a new key goes last. *)
Fixpoint set {V} (k : string) (v : V) (d : dict V) : dict V :=
  match d with
  | [] => [(k, v)]
  | (k', v') :: d' =>
      if String.eqb k' k then (k', v) :: d' else (k', v') :: set k v d'
  end.

(** [list(d.keys())]. *)
Definition keys {V} (d : dict V) : list string := map fst d.

(** [len(d)]. *)
Definition len {V} (d : dict V) : nat := List.length d.

End Dict.

(** ** Formatting integers: [f"{ratio}"] *)

(** [str(n)] for a Python [int]: decimal digits, a leading [-] when negative. *)
Definition str_int (n : Z) : string := NilZero.string_of_int (Z.to_int n).

(** [f"sys{ratio}x"]. *)
Definition sys_x (ratio : Z) : string :=
  ("sys" ++ str_int ratio ++ "x")%string.

(** [f"sys{ratio}x_180"]. *)
Definition sys_x_180 (ratio : Z) : string :=
  ("sys" ++ str_int ratio ++ "x_180")%string.

(** Whether a character occurs in a string. *)
Fixpoint occurs (c : ascii) (s : string) : bool :=
  match s with
  | EmptyString => false
  | String c' s' => Ascii.eqb c' c || occurs c s'
  end.

(** ** Clocks *)

(** A clock description, [dict(freq_hz=..., phase_deg=...)]; the key
    [phase_deg] is only present on the shifted domains. *)
Record ClockDesc : Type := mkClock {
  freq_hz : Z;
  phase_deg : option Z
}.

(** The phase the simulator gives a clock: the clocker takes [phase_deg]
    as a keyword argument whose default is 0. *)
Definition phase_of (d : ClockDesc) : Z :=
  match phase_deg d with
  | Some p => p
  | None => 0
  end.

(** The [defs] dictionary of [get_clocks]: role name to multiplier. *)
Definition clock_defs (wck_ck_ratio dfi_converter_ratio : Z) : Dict.dict Z :=
  [ ("phy",     dfi_converter_ratio);
    ("ck",      dfi_converter_ratio);
    ("ck_ddr",  2 * dfi_converter_ratio);
    ("ca_ddr",  4 * dfi_converter_ratio);
    ("wck_ddr", 2 * wck_ck_ratio * dfi_converter_ratio) ].

(** One iteration of the loop over [defs.items()]. *)
Definition add_clock_pair (sys_clk_freq : Z)
    (clocks : Dict.dict ClockDesc) (item : string * Z) : Dict.dict ClockDesc :=
  let ratio := snd item in
  Dict.set (sys_x_180 ratio) (mkClock (ratio * sys_clk_freq) (Some 180))
    (Dict.set (sys_x ratio) (mkClock (ratio * sys_clk_freq) None) clocks).

(** Modelled from the spec: the class [Clocks] is not among the sources.  A
    clock plan is the ordered mapping from domain names to clock
    descriptions, so the constructor keeps the dictionary it is given. *)
Definition Clocks (clocks : Dict.dict ClockDesc) : Dict.dict ClockDesc :=
  clocks.

(** [get_clocks(sys_clk_freq, wck_ck_ratio, dfi_converter_ratio)]. *)
Definition get_clocks (sys_clk_freq wck_ck_ratio dfi_converter_ratio : Z)
    : Dict.dict ClockDesc :=
  Clocks
    (fold_left (add_clock_pair sys_clk_freq)
       (clock_defs wck_ck_ratio dfi_converter_ratio)
       [("sys", mkClock sys_clk_freq None)]).

(** The multipliers the planner computes: [defs.values()]. *)
Definition multipliers (wck_ck_ratio dfi_converter_ratio : Z) : list Z :=
  map snd (clock_defs wck_ck_ratio dfi_converter_ratio).

(** What [get_clocks] stores for a multiplier [r]: the 0-degree domain and
    the 180-degree domain. *)
Definition plain (sys_clk_freq r : Z) : ClockDesc :=
  mkClock (r * sys_clk_freq) None.
Definition shifted (sys_clk_freq r : Z) : ClockDesc :=
  mkClock (r * sys_clk_freq) (Some 180).

(** An entry of a plan is the base clock, or one of the two domains of a
    multiplier drawn from [rs]. *)
Definition entry_ok (sys_clk_freq : Z) (rs : list Z)
    (e : string * ClockDesc) : Prop :=
  e = ("sys", mkClock sys_clk_freq None) \/
  exists r, In r rs /\
    (e = (sys_x r, plain sys_clk_freq r) \/
     e = (sys_x_180 r, shifted sys_clk_freq r)).

(** The domain a plan holds for a role of [defs]: the role's multiplier
    names it. *)
Definition role_domain (sys_clk_freq wck_ck_ratio dfi_converter_ratio : Z)
    (role : string) : option ClockDesc :=
  match Dict.get (clock_defs wck_ck_ratio dfi_converter_ratio) role with
  | Some ratio =>
      Dict.get (get_clocks sys_clk_freq wck_ck_ratio dfi_converter_ratio)
               (sys_x ratio)
  | None => None
  end.

(** The entries of a plan made for a multiplier: those that carry one of
    its two names. *)
Definition entries_for (ratio : Z) (clocks : Dict.dict ClockDesc)
    : Dict.dict ClockDesc :=
  filter (fun e => String.eqb (fst e) (sys_x ratio)
                   || String.eqb (fst e) (sys_x_180 ratio)) clocks.

(** ** Python numbers

    [x / y] on a [float] and an [int] converts the [int] to the nearest
    binary64 value (ties to even) and divides in binary64; it raises
    [OverflowError] when the [int] has no finite binary64 value and
    [ZeroDivisionError] when the divisor is zero.  Both errors are [None]. *)

Definition float : Type := spec_float.

Definition float_of_int (n : Z) : option float :=
  match binary_normalize 53 1024 n 0 false with
  | S754_infinity _ => None
  | x => Some x
  end.

(** A float literal with an integral value that binary64 holds exactly,
    such as [1e9] or [32e6]. *)
Definition float_lit (n : Z) : float := binary_normalize 53 1024 n 0 false.

(** [x / n] for a float [x] and an int [n]. *)
Definition float_div_int (x : float) (n : Z) : option float :=
  if n =? 0 then None
  else match float_of_int n with
       | Some y => Some (SFdiv 53 1024 x y)
       | None => None
       end.

(** ** The memory module's timing table *)

(** The values a timing entry takes in this file: [None], an [int] such as
    [tRFC=210], a [float] such as [tREFI=32e6/8192], or a tuple
    [(ck, ns)] whose components are an [int] or [None]. *)
Inductive timing : Type :=
| TNone
| TInt (n : Z)
| TFloat (x : float)
| TTuple (ck : option Z) (ns : option Z).

(** The keys of the [tccd] dictionary. *)
Inductive WriteKind : Type := PlainWrite | MaskedWrite.

(** Modelled from the spec: the two name lists are imported from the PHY
    model, which is not among the sources.  They name the speed-grade-level
    and the technology-level constants of the timing table, the keywords of
    the two constructors below. *)
Definition _speedgrade_timings : list string :=
  ["tRP"; "tRCD"; "tWR"; "tRFC"; "tFAW"; "tRAS"].
Definition _technology_timings : list string :=
  ["tREFI"; "tWTR"; "tCCD"; "tRRD"; "tZQCS"].

Module LPDDR5ExampleModule.

Definition memtype : string := "LPDDR5".
Definition nbanks : Z := 16.
Definition nrows : Z := 32768.
Definition ncols : Z := 1024.

(** [tccd = {"write": (8, None), "masked-write": (32, None)}]. *)
Definition tccd (k : WriteKind) : timing :=
  match k with
  | PlainWrite => TTuple (Some 8) None
  | MaskedWrite => TTuple (Some 32) None
  end.

(** [_TechnologyTimings(tREFI=32e6/8192, tWTR=(4, 12),
    tCCD=tccd["masked-write"], tRRD=(2, 5), tZQCS=(128, 80))]. *)
Definition technology_timings : Dict.dict timing :=
  [ ("tREFI", TFloat (SFdiv 53 1024 (float_lit 32000000) (float_lit 8192)));
    ("tWTR",  TTuple (Some 4) (Some 12));
    ("tCCD",  tccd MaskedWrite);
    ("tRRD",  TTuple (Some 2) (Some 5));
    ("tZQCS", TTuple (Some 128) (Some 80)) ].

(** [speedgrade_timings = {"default": _SpeedgradeTimings(...)}]. *)
Definition speedgrade_timings : Dict.dict (Dict.dict timing) :=
  [ ("default",
     [ ("tRP",  TTuple (Some 2) (Some 21));
       ("tRCD", TTuple (Some 2) (Some 18));
       ("tWR",  TTuple (Some 3) (Some 34));
       ("tRFC", TInt 210);
       ("tFAW", TInt 20);
       ("tRAS", TTuple (Some 3) (Some 42)) ]) ].

(** Modelled from the spec: the accessor [get] of the module's base class
    is not among the sources.  The table is a static registry read by
    name: the entry of the speedgrade table (grade ["default"]) for a
    speedgrade timing, of the technology table otherwise; [None] when
    there is none. *)
Definition get (name : string) : timing :=
  let table :=
    if existsb (String.eqb name) _speedgrade_timings
    then match Dict.get speedgrade_timings "default" with
         | Some t => t
         | None => []
         end
    else technology_timings in
  match Dict.get table name with
  | Some t => t
  | None => TNone
  end.

End LPDDR5ExampleModule.

(** ** [SimSoC.__init__] *)

(** The keyword arguments of [SimSoC.__init__] that the modelled part reads. *)
Record SimSoCArgs : Type := mkArgs {
  disable_delay : bool;
  masked_write : bool;
  wck_ck_ratio : Z;
  dfi_converter_ratio : Z
}.

(** [sys_clk_freq = clocks["sys"]["freq_hz"]]. *)
Definition soc_sys_clk_freq (clocks : Dict.dict ClockDesc) : option Z :=
  option_map freq_hz (Dict.get clocks "sys").

(** One iteration of the loop over [[2, 2*wck_ck_ratio]]. *)
Definition add_mapping_pair (dfi_converter_ratio : Z)
    (clock_mapping : Dict.dict string) (ratio : Z) : Dict.dict string :=
  Dict.set (sys_x_180 ratio) (sys_x_180 (dfi_converter_ratio * ratio))
    (Dict.set (sys_x ratio) (sys_x (dfi_converter_ratio * ratio))
       clock_mapping).

(** The [clock_mapping] dictionary: source domain name to target name. *)
Definition clock_mapping (a : SimSoCArgs) : Dict.dict string :=
  fold_left (add_mapping_pair (dfi_converter_ratio a))
    [2; 2 * wck_ck_ratio a]
    [("sys", sys_x (dfi_converter_ratio a))].

(** The [phy_attrs] list handed to the rate converter. *)
Definition phy_attrs : list string :=
  [ "pads"; "memtype"; "nranks"; "databits"; "addressbits"; "bankbits";
    "nphases"; "twck"; "ser_latency"; "des_latency"; "out" ].

(** The keyword arguments the PHY class is instantiated with. *)
Record PhyArgs : Type := mkPhyArgs {
  phy_sys_clk_freq : Z;
  phy_aligned_reset_zero : bool;
  phy_masked_write : bool;
  phy_wck_ck_ratio : Z
}.

Definition ddrphy_args (a : SimSoCArgs) (sys_clk_freq : Z) : PhyArgs :=
  mkPhyArgs (dfi_converter_ratio a * sys_clk_freq) true
    (masked_write a) (wck_ck_ratio a).

(** The value stored under ["tCK"]: [(1e9 / sys_clk_freq) / nphases]. *)
Definition checker_tCK (sys_clk_freq nphases : Z) : option float :=
  match float_div_int (float_lit 1000000000) sys_clk_freq with
  | Some period => float_div_int period nphases
  | None => None
  end.

(** The [timings] dictionary handed to [DFITimingsChecker].  [nphases] is
    read from the controller's PHY settings.  The arguments of
    [SimSoC.__init__] are taken whole, as the constructor receives them. *)
Definition checker_timings (a : SimSoCArgs) (sys_clk_freq nphases : Z)
    : option (Dict.dict timing) :=
  match checker_tCK sys_clk_freq nphases with
  | Some tck =>
      Some (fold_left
              (fun timings name =>
                 Dict.set name (LPDDR5ExampleModule.get name) timings)
              (_speedgrade_timings ++ _technology_timings)
              [("tCK", TFloat tck)])
  | None => None
  end.

(** What drives the checker's [logging_enabled] signal: with
    [disable_delay] it is combinatorially tied to [ddrctrl.init_done];
    otherwise [SimSoC] leaves it at the checker's own reset value. *)
Definition checker_logging_enabled (a : SimSoCArgs)
    (reset_value init_done : bool) : bool :=
  if disable_delay a then init_done else reset_value.

(** The write command the PHY is configured to issue. *)
Definition write_form (a : SimSoCArgs) : WriteKind :=
  if masked_write a then MaskedWrite else PlainWrite.

(** The reading under which the checker's column-to-column delay follows
    the write form in use: the [tCCD] entry of the table it is handed is
    the [tccd] value of that form. *)
Definition tccd_selected_by_write_form : Prop :=
  forall (a : SimSoCArgs) (sys_clk_freq nphases : Z) (t : Dict.dict timing),
    checker_timings a sys_clk_freq nphases = Some t ->
    Dict.get t "tCCD" = Some (LPDDR5ExampleModule.tccd (write_form a)).

(** ** The rate converter adapter *)

Module RateConverterAdapter.
Section Adapter.

(** What an attribute holds is opaque to the adapter. *)
Variable Attr : Type.

(** A protocol engine as its callers see it: its attributes by name, the
    clock domains its logic refers to, and the latency, in PHY-domain
    cycles, between the protocol bus and the pins. *)
Record Engine : Type := mkEngine {
  attrs : Dict.dict Attr;
  clock_refs : list string;
  latency : Z
}.

(** The latency the converter itself adds at a given ratio. *)
Variable converter_latency : Z -> Z.

(** Redirecting one reference to a clock domain. *)
Definition rename (clock_mapping : Dict.dict string) (cd : string) : string :=
  match Dict.get clock_mapping cd with
  | Some target => target
  | None => cd
  end.

(** Re-exposing one attribute: it is copied when the inner engine has
    it. *)
Definition forward_step (inner out : Dict.dict Attr) (name : string)
    : Dict.dict Attr :=
  match Dict.get inner name with
  | Some v => Dict.set name v out
  | None => out
  end.

(** The attributes re-exposed on the adapter, each one unchanged. *)
Definition forward (forwarded_attributes : list string)
    (inner : Dict.dict Attr) : Dict.dict Attr :=
  fold_left (forward_step inner) forwarded_attributes [].

(** [out] holds nothing that [inner] does not hold. *)
Definition below (inner out : Dict.dict Attr) : Prop :=
  forall k v, Dict.get out k = Some v -> Dict.get inner k = Some v.

(** Modelled from the spec: [DFIRateConverter.phy_wrapper] is not among
    the sources.  The adapter re-exposes the forwarded attributes
    unchanged, redirects every clock-domain reference through
    [clock_mapping] and adds the converter's latency; with [ratio = 1] it
    degenerates to a passthrough of the inner engine. *)
Definition wrap (inner : Engine) (ratio : Z)
    (forwarded_attributes : list string)
    (clock_mapping : Dict.dict string) : Engine :=
  if ratio =? 1 then inner
  else mkEngine
         (forward forwarded_attributes (attrs inner))
         (map (rename clock_mapping) (clock_refs inner))
         (latency inner + converter_latency ratio).

(** [sim_phy_cls], as [SimSoC.__init__] builds it. *)
Definition sim_phy (a : SimSoCArgs) (phy : Engine) : Engine :=
  wrap phy (dfi_converter_ratio a) phy_attrs (clock_mapping a).

End Adapter.

Arguments attrs {Attr} _.
Arguments clock_refs {Attr} _.
Arguments latency {Attr} _.
Arguments forward_step {Attr} _ _ _.
Arguments forward {Attr} _ _.
Arguments below {Attr} _ _.
Arguments wrap {Attr} _ _ _ _ _.
Arguments sim_phy {Attr} _ _ _.

End RateConverterAdapter.

(** ** The timings checker's reporting gate *)

Module DFITimingsChecker.
Section Gate.

(** The checker's timing state, what it reads from the protocol bus in one
    controller cycle (the commands of all phases), and a violation event. *)
Variables State Input Event : Type.

(** The violations found in one cycle, all phases evaluated against the
    state as it was before the cycle. *)
Variable findings : State -> Input -> list Event.

(** The state after the cycle's commands are recorded. *)
Variable commit : State -> Input -> State.

(** Modelled from the spec: [DFITimingsChecker] is not among the sources.
    One cycle: the findings are computed against the pre-cycle state, the
    state is updated, and the findings are emitted only when the enable
    flag sampled in this cycle is set. *)
Definition cycle (s : State) (enable : bool) (i : Input)
    : State * list Event :=
  (commit s i, if enable then findings s i else []).

(** A run over a trace of (enable, input) pairs: final state and the
    events reported, oldest first. *)
Fixpoint run (s : State) (trace : list (bool * Input))
    : State * list Event :=
  match trace with
  | [] => (s, [])
  | (enable, i) :: rest =>
      let (s1, out) := cycle s enable i in
      let (s2, out') := run s1 rest in
      (s2, out ++ out')
  end.

(** The violations that occur in each cycle of a run, reported or not. *)
Fixpoint occurring (s : State) (inputs : list Input) : list (list Event) :=
  match inputs with
  | [] => []
  | i :: rest => findings s i :: occurring (commit s i) rest
  end.

(** The state the checker reaches after the given inputs. *)
Definition state_after (s : State) (inputs : list Input) : State :=
  fold_left commit inputs s.

(** The run of the checker inside [SimSoC]: the trace carries the value
    of [ddrctrl.init_done] in each cycle. *)
Definition soc_run (a : SimSoCArgs) (reset_value : bool) (s : State)
    (trace : list (bool * Input)) : State * list Event :=
  run s (map (fun x => (checker_logging_enabled a reset_value (fst x), snd x))
             trace).

End Gate.

Arguments cycle {State Input Event} _ _ _ _ _.
Arguments run {State Input Event} _ _ _ _.
Arguments occurring {State Input Event} _ _ _ _.
Arguments state_after {State Input} _ _ _.
Arguments soc_run {State Input Event} _ _ _ _ _ _.

(** A small instance used to exercise the gate: one bank, the command is
    an activate or nothing, and two activates closer than [tRC] cycles are
    a violation reported with the cycle distance observed. *)
Module RowCycle.

Record state : Type := mkState { now : Z; last_activate : option Z }.

Definition tRC : Z := 4.

Definition findings (s : state) (activate : bool) : list Z :=
  match activate, last_activate s with
  | true, Some t => if now s - t <? tRC then [now s - t] else []
  | _, _ => []
  end.

Definition commit (s : state) (activate : bool) : state :=
  mkState (now s + 1) (if activate then Some (now s) else last_activate s).

Definition init : state := mkState 0 None.

End RowCycle.

End DFITimingsChecker.

(** ** Binding cycle requirement of a timing parameter *)

Module TimingParameter.

Record t : Type := mk {
  name : string;
  cycles : option Z;
  nanoseconds : option Q
}.

(** A time bound in clock cycles: [ceil(nanoseconds / tCK)]. *)
Definition ns_to_cycles (ns tCK : Q) : Z := Qceiling (ns / tCK).

(** Modelled from the spec: the checker's conversion of its timing table is
    not among the sources.  The binding requirement is the larger of the
    cycle count and the time bound converted to cycles; an absent component
    imposes no bound, and a parameter with neither component is invalid. *)
Definition binding_cycles (p : t) (tCK : Q) : option Z :=
  match cycles p, nanoseconds p with
  | Some c, Some ns => Some (Z.max c (ns_to_cycles ns tCK))
  | Some c, None => Some c
  | None, Some ns => Some (ns_to_cycles ns tCK)
  | None, None => None
  end.

(** [k] cycles satisfy the parameter: at least the cycle count and at
    least the time bound. *)
Definition meets (p : t) (tCK : Q) (k : Z) : Prop :=
  (forall c, cycles p = Some c -> c <= k) /\
  (forall ns, nanoseconds p = Some ns -> (ns <= inject_Z k * tCK)%Q).

End TimingParameter.

(** ** The phases the checker is given *)

(** Modelled from the spec: the settings of the wrapped PHY are not among
    the sources.  The adapter multiplexes the per-phase traffic of the
    inner engine across the [ratio] PHY-domain cycles of one
    controller-domain cycle, so the protocol bus the controller sees
    carries [ratio] times the phases of the inner engine; with [ratio = 1]
    that is the inner engine's own number of phases. *)
Definition wrapped_nphases (ratio phy_nphases : Z) : Z :=
  ratio * phy_nphases.

(** [nphases = self.sdram.controller.settings.phy.nphases]: the phases of
    [self.ddrphy], the PHY wrapped with [ratio = dfi_converter_ratio];
    [phy_nphases] is the number of phases of the PHY class itself. *)
Definition soc_nphases (a : SimSoCArgs) (phy_nphases : Z) : Z :=
  wrapped_nphases (dfi_converter_ratio a) phy_nphases.

(** The value [SimSoC.__init__] stores under ["tCK"] and the dictionary it
    hands to the checker, with [nphases] read as the constructor reads
    it. *)
Definition soc_checker_tCK (a : SimSoCArgs) (sys_clk_freq phy_nphases : Z)
    : option float :=
  checker_tCK sys_clk_freq (soc_nphases a phy_nphases).

Definition soc_checker_timings (a : SimSoCArgs)
    (sys_clk_freq phy_nphases : Z) : option (Dict.dict timing) :=
  checker_timings a sys_clk_freq (soc_nphases a phy_nphases).

(** The reading under which [tCK] does not depend on the converter ratio:
    two constructions that differ in [dfi_converter_ratio] alone store the
    same [tCK]. *)
Definition tCK_independent_of_converter_ratio : Prop :=
  forall (dd mw : bool) (w c c' sys_clk_freq phy_nphases : Z),
    soc_checker_tCK (mkArgs dd mw w c) sys_clk_freq phy_nphases =
    soc_checker_tCK (mkArgs dd mw w c') sys_clk_freq phy_nphases.

(** ** The DRAM simulator's arguments *)

(** The keyword arguments [LPDDR5Sim] is instantiated with in
    [SimSoC.__init__]; the three entries of [logger_kwargs] are the last
    three fields. *)
Record SimArgs : Type := mkSimArgs {
  sim_ck_freq : Z;
  sim_wck_ck_ratio : Z;
  sim_check_timings : bool;
  logger_clk_freq_cd : string;
  logger_clk_freq : Z;
  logger_with_csrs : bool
}.

Definition lpddr5sim_args (a : SimSoCArgs) (sys_clk_freq : Z) : SimArgs :=
  mkSimArgs
    (dfi_converter_ratio a * sys_clk_freq)
    (wck_ck_ratio a)
    (negb (disable_delay a))
    (sys_x (2 * wck_ck_ratio a * dfi_converter_ratio a))
    (2 * wck_ck_ratio a * dfi_converter_ratio a * sys_clk_freq)
    true.

(** ** The order of a plan's keys *)

(** The two names [get_clocks] writes for a multiplier, in the order it
    writes them. *)
Definition domain_pair (r : Z) : list string := [sys_x r; sys_x_180 r].

(** The multipliers met so far, each one once, in the order of their first
    appearance. *)
Definition note_ratio (seen : list Z) (r : Z) : list Z :=
  if existsb (Z.eqb r) seen then seen else seen ++ [r].

Definition distinct_ratios (rs : list Z) : list Z :=
  fold_left note_ratio rs [].

(** * Properties *)

(** ** Domain names *)

Section Names.

Lemma uint_digits_no_x (d : Decimal.uint) :
  occurs "x" (NilEmpty.string_of_uint d) = false.
Proof. induction d; simpl; auto. Qed.

Lemma str_int_no_x (n : Z) : occurs "x" (str_int n) = false.
Proof.
  unfold str_int, NilZero.string_of_int, NilZero.string_of_uint.
  destruct (Z.to_int n) as [d | d]; destruct d; simpl;
    auto using uint_digits_no_x.
Qed.

Lemma to_int_not_nil (n : Z) :
  Z.to_int n <> Decimal.Pos Decimal.Nil /\
  Z.to_int n <> Decimal.Neg Decimal.Nil.
Proof.
  destruct n as [| p | p]; simpl; split; try discriminate;
    intros [= H]; exact (Unsigned.to_uint_nonnil p H).
Qed.

(** Distinct integers print differently. *)
Lemma str_int_inj (a b : Z) : str_int a = str_int b -> a = b.
Proof.
  unfold str_int. intros H.
  apply DecimalZ.to_int_inj.
  destruct (to_int_not_nil a) as [Ha1 Ha2].
  destruct (to_int_not_nil b) as [Hb1 Hb2].
  pose proof (NilZero.isi _ Ha1 Ha2) as Ea.
  pose proof (NilZero.isi _ Hb1 Hb2) as Eb.
  rewrite H in Ea. congruence.
Qed.

(** Two strings that agree up to their first ["x"] agree before it and
    after it. *)
Lemma split_at_x (s s' t t' : string) :
  occurs "x" s = false -> occurs "x" s' = false ->
  (s ++ String "x" t = s' ++ String "x" t')%string -> s = s' /\ t = t'.
Proof.
  revert s'. induction s as [| c s IH]; intros [| c' s'] Hs Hs' E;
    simpl in *.
  - injection E as ->. auto.
  - injection E as <- _. discriminate.
  - injection E as -> _. discriminate.
  - apply orb_false_iff in Hs as [_ Hs].
    apply orb_false_iff in Hs' as [_ Hs'].
    injection E as -> E.
    destruct (IH _ Hs Hs' E) as [-> ->]. auto.
Qed.

Lemma sys_x_eq (r : Z) :
  sys_x r = String "s" (String "y" (String "s" (str_int r ++ "x")%string)).
Proof. reflexivity. Qed.

Lemma sys_x_180_eq (r : Z) :
  sys_x_180 r =
  String "s" (String "y" (String "s" (str_int r ++ "x_180")%string)).
Proof. reflexivity. Qed.

Lemma sys_x_inj (a b : Z) : sys_x a = sys_x b -> a = b.
Proof.
  rewrite !sys_x_eq. intros [= E].
  apply split_at_x in E; auto using str_int_no_x.
  apply str_int_inj, E.
Qed.

Lemma sys_x_180_inj (a b : Z) : sys_x_180 a = sys_x_180 b -> a = b.
Proof.
  rewrite !sys_x_180_eq. intros [= E].
  apply split_at_x in E; auto using str_int_no_x.
  apply str_int_inj, E.
Qed.

Lemma sys_x_not_180 (a b : Z) : sys_x a <> sys_x_180 b.
Proof.
  rewrite sys_x_eq, sys_x_180_eq. intros [= E].
  apply split_at_x in E; auto using str_int_no_x.
  destruct E as [_ E]. discriminate.
Qed.

Lemma sys_not_sys_x (r : Z) : "sys" <> sys_x r.
Proof.
  rewrite sys_x_eq. intros [= E].
  destruct (str_int r); discriminate.
Qed.

Lemma sys_not_sys_x_180 (r : Z) : "sys" <> sys_x_180 r.
Proof.
  rewrite sys_x_180_eq. intros [= E].
  destruct (str_int r); discriminate.
Qed.

(** The same facts for the comparison [Dict.get] and [Dict.set] use. *)
Lemma eqb_sys_x (a b : Z) : String.eqb (sys_x a) (sys_x b) = (a =? b).
Proof.
  destruct (Z.eqb_spec a b) as [-> | N].
  - apply String.eqb_refl.
  - apply String.eqb_neq. intros E. apply N, sys_x_inj, E.
Qed.

Lemma eqb_sys_x_180 (a b : Z) :
  String.eqb (sys_x_180 a) (sys_x_180 b) = (a =? b).
Proof.
  destruct (Z.eqb_spec a b) as [-> | N].
  - apply String.eqb_refl.
  - apply String.eqb_neq. intros E. apply N, sys_x_180_inj, E.
Qed.

Lemma eqb_sys_x_not_180 (a b : Z) :
  String.eqb (sys_x a) (sys_x_180 b) = false.
Proof. apply String.eqb_neq, sys_x_not_180. Qed.

Lemma eqb_sys_x_180_not (a b : Z) :
  String.eqb (sys_x_180 a) (sys_x b) = false.
Proof. rewrite String.eqb_sym. apply eqb_sys_x_not_180. Qed.

Lemma eqb_sys_sys_x (r : Z) : String.eqb "sys" (sys_x r) = false.
Proof. apply String.eqb_neq, sys_not_sys_x. Qed.

Lemma eqb_sys_sys_x_180 (r : Z) : String.eqb "sys" (sys_x_180 r) = false.
Proof. apply String.eqb_neq, sys_not_sys_x_180. Qed.

Lemma eqb_sys_x_sys (r : Z) : String.eqb (sys_x r) "sys" = false.
Proof. rewrite String.eqb_sym. apply eqb_sys_sys_x. Qed.

Lemma eqb_sys_x_180_sys (r : Z) : String.eqb (sys_x_180 r) "sys" = false.
Proof. rewrite String.eqb_sym. apply eqb_sys_sys_x_180. Qed.

End Names.

Create Rewrite HintDb names.
#[export] Hint Rewrite eqb_sys_x eqb_sys_x_180 eqb_sys_x_not_180
  eqb_sys_x_180_not eqb_sys_sys_x eqb_sys_sys_x_180 eqb_sys_x_sys
  eqb_sys_x_180_sys String.eqb_refl : names.

(** ** Dictionaries *)

Section DictFacts.

Context {V : Type}.
Implicit Types (d : Dict.dict V) (k : string) (v : V).

Lemma get_set d k v k' :
  Dict.get (Dict.set k v d) k' =
  if String.eqb k k' then Some v else Dict.get d k'.
Proof.
  induction d as [| [k0 v0] d IH]; simpl.
  - reflexivity.
  - destruct (String.eqb_spec k0 k) as [-> | N]; simpl.
    + destruct (String.eqb k k'); reflexivity.
    + rewrite IH.
      destruct (String.eqb_spec k0 k') as [-> | N'];
        destruct (String.eqb_spec k k'); congruence.
Qed.

Lemma in_keys_set d k v k' :
  In k' (Dict.keys (Dict.set k v d)) <-> k' = k \/ In k' (Dict.keys d).
Proof.
  unfold Dict.keys.
  induction d as [| [k0 v0] d IH]; simpl.
  - intuition.
  - destruct (String.eqb_spec k0 k) as [-> | N]; simpl.
    + intuition.
    + rewrite IH. intuition.
Qed.

Lemma nodup_keys_set d k v :
  NoDup (Dict.keys d) -> NoDup (Dict.keys (Dict.set k v d)).
Proof.
  induction d as [| [k0 v0] d IH]; simpl; intros H.
  - constructor; [intros [] | constructor].
  - inversion_clear H as [| ? ? Hk0 Hd].
    destruct (String.eqb_spec k0 k) as [-> | N]; simpl.
    + constructor; assumption.
    + constructor; [| apply IH, Hd].
      fold (Dict.keys (Dict.set k v d)).
      rewrite in_keys_set. intros [-> | Hin]; [apply N; reflexivity |].
      apply Hk0, Hin.
Qed.

Lemma forall_set (P : string * V -> Prop) d k v :
  Forall P d -> P (k, v) -> Forall P (Dict.set k v d).
Proof.
  intros Hd Hkv. induction Hd as [| [k0 v0] d H0 Hd IH]; simpl.
  - constructor; [assumption | constructor].
  - destruct (String.eqb_spec k0 k) as [-> | N]; constructor; assumption.
Qed.

Lemma get_some_in d k v : Dict.get d k = Some v -> In (k, v) d.
Proof.
  induction d as [| [k0 v0] d IH]; simpl; [discriminate |].
  destruct (String.eqb_spec k0 k) as [-> | N].
  - intros [= ->]. left. reflexivity.
  - intros H. right. apply IH, H.
Qed.

Lemma in_get_some d k v :
  NoDup (Dict.keys d) -> In (k, v) d -> Dict.get d k = Some v.
Proof.
  induction d as [| [k0 v0] d IH]; simpl; intros Hnd [].
  - injection H as -> ->. rewrite String.eqb_refl. reflexivity.
  - inversion_clear Hnd as [| ? ? Hk0 Hd].
    destruct (String.eqb_spec k0 k) as [-> | N].
    + exfalso. apply Hk0. apply (in_map fst) in H. exact H.
    + apply IH; assumption.
Qed.

Lemma get_none_not_in d k :
  Dict.get d k = None <-> ~ In k (Dict.keys d).
Proof.
  induction d as [| [k0 v0] d IH]; simpl.
  - intuition.
  - destruct (String.eqb_spec k0 k) as [-> | N].
    + split; [discriminate | intros H; exfalso; apply H; auto].
    + rewrite IH. intuition.
Qed.

End DictFacts.

(** ** The clock plan *)

Section ClockPlan.

Variable f : Z.

Lemma get_add_clock_pair d item k :
  Dict.get (add_clock_pair f d item) k =
  if String.eqb (sys_x_180 (snd item)) k then Some (shifted f (snd item))
  else if String.eqb (sys_x (snd item)) k then Some (plain f (snd item))
  else Dict.get d k.
Proof. unfold add_clock_pair. rewrite !get_set. reflexivity. Qed.

(** The loop never touches an entry other than by rewriting the value it
    already holds. *)
Lemma loop_keeps_sys items d :
  Dict.get d "sys" = Some (mkClock f None) ->
  Dict.get (fold_left (add_clock_pair f) items d) "sys"
  = Some (mkClock f None).
Proof.
  revert d. induction items as [| it items IH]; simpl; intros d H; auto.
  apply IH. rewrite get_add_clock_pair. autorewrite with names. exact H.
Qed.

Lemma loop_keeps_plain items d r :
  Dict.get d (sys_x r) = Some (plain f r) ->
  Dict.get (fold_left (add_clock_pair f) items d) (sys_x r)
  = Some (plain f r).
Proof.
  revert d. induction items as [| it items IH]; simpl; intros d H; auto.
  apply IH. rewrite get_add_clock_pair. autorewrite with names.
  destruct (Z.eqb_spec (snd it) r) as [-> | _]; auto.
Qed.

Lemma loop_keeps_shifted items d r :
  Dict.get d (sys_x_180 r) = Some (shifted f r) ->
  Dict.get (fold_left (add_clock_pair f) items d) (sys_x_180 r)
  = Some (shifted f r).
Proof.
  revert d. induction items as [| it items IH]; simpl; intros d H; auto.
  apply IH. rewrite get_add_clock_pair. autorewrite with names.
  destruct (Z.eqb_spec (snd it) r) as [-> | _]; auto.
Qed.

(** Every multiplier the loop visits ends with both of its domains. *)
Lemma loop_adds_pair items d r :
  In r (map snd items) ->
  Dict.get (fold_left (add_clock_pair f) items d) (sys_x r)
  = Some (plain f r) /\
  Dict.get (fold_left (add_clock_pair f) items d) (sys_x_180 r)
  = Some (shifted f r).
Proof.
  revert d. induction items as [| it items IH]; simpl; intros d Hin.
  - destruct Hin.
  - destruct (in_dec Z.eq_dec r (map snd items)) as [Hr | Hr].
    + apply IH, Hr.
    + destruct Hin as [<- | Hin]; [| contradiction].
      split.
      * apply loop_keeps_plain. rewrite get_add_clock_pair.
        autorewrite with names. rewrite ?Z.eqb_refl. reflexivity.
      * apply loop_keeps_shifted. rewrite get_add_clock_pair.
        autorewrite with names. rewrite ?Z.eqb_refl. reflexivity.
Qed.

Lemma loop_nodup items d :
  NoDup (Dict.keys d) ->
  NoDup (Dict.keys (fold_left (add_clock_pair f) items d)).
Proof.
  revert d. induction items as [| it items IH]; simpl; intros d H; auto.
  apply IH. unfold add_clock_pair. auto using nodup_keys_set.
Qed.

Lemma entry_ok_mono rs rs' e :
  (forall r, In r rs -> In r rs') -> entry_ok f rs e -> entry_ok f rs' e.
Proof.
  intros Hsub [H | (r & Hr & H)]; [left; assumption |].
  right. exists r. auto.
Qed.

Lemma loop_entries items d seen :
  Forall (entry_ok f seen) d ->
  Forall (entry_ok f (seen ++ map snd items))
         (fold_left (add_clock_pair f) items d).
Proof.
  revert d seen. induction items as [| it items IH]; simpl; intros d seen H.
  - rewrite app_nil_r. exact H.
  - replace (seen ++ snd it :: map snd items)
      with ((seen ++ [snd it]) ++ map snd items)
      by (rewrite <- app_assoc; reflexivity).
    apply IH. unfold add_clock_pair.
    assert (Hin : In (snd it) (seen ++ [snd it]))
      by (apply in_or_app; right; left; reflexivity).
    apply forall_set; [apply forall_set |].
    + eapply Forall_impl; [| exact H].
      intros e. apply entry_ok_mono. intros r Hr.
      apply in_or_app. left. exact Hr.
    + right. exists (snd it). auto.
    + right. exists (snd it). auto.
Qed.

End ClockPlan.

Lemma get_clocks_sys f w c :
  Dict.get (get_clocks f w c) "sys" = Some (mkClock f None).
Proof. unfold get_clocks, Clocks. apply loop_keeps_sys. reflexivity. Qed.

Lemma get_clocks_pair f w c r :
  In r (multipliers w c) ->
  Dict.get (get_clocks f w c) (sys_x r) = Some (plain f r) /\
  Dict.get (get_clocks f w c) (sys_x_180 r) = Some (shifted f r).
Proof. unfold get_clocks, Clocks, multipliers. apply loop_adds_pair. Qed.

Lemma get_clocks_nodup f w c : NoDup (Dict.keys (get_clocks f w c)).
Proof.
  unfold get_clocks, Clocks. apply loop_nodup. simpl.
  constructor; [intros [] | constructor].
Qed.

Lemma get_clocks_entries f w c :
  Forall (entry_ok f (multipliers w c)) (get_clocks f w c).
Proof.
  unfold get_clocks, Clocks, multipliers.
  apply (loop_entries f _ _ []).
  constructor; [left; reflexivity | constructor].
Qed.

Lemma set_cons {V} (k : string) (v : V) k' v' d :
  Dict.set k v ((k', v') :: d) =
  if String.eqb k' k then (k', v) :: d else (k', v') :: Dict.set k v d.
Proof. reflexivity. Qed.

Lemma set_nil {V} (k : string) (v : V) : Dict.set k v [] = [(k, v)].
Proof. reflexivity. Qed.

(** Decides the comparisons of multipliers that a symbolic run of the loop
    leaves behind. *)
Ltac decide_ratios :=
  repeat match goal with
         | |- context [Z.eqb ?a ?b] =>
             destruct (Z.eqb_spec a b); try lia
         end.

(** Runs [Dict.set] on a dictionary whose spine is known. *)
Ltac run_sets :=
  repeat (first [rewrite set_nil | rewrite set_cons];
          autorewrite with names; decide_ratios).

Lemma filter_key_length {V} (d : Dict.dict V) (k : string) :
  NoDup (Dict.keys d) ->
  List.length (filter (fun e => String.eqb (fst e) k) d) =
  match Dict.get d k with Some _ => 1%nat | None => 0%nat end.
Proof.
  induction d as [| [k0 v0] d IH]; simpl; intros H; [reflexivity |].
  inversion_clear H as [| ? ? Hk0 Hd].
  destruct (String.eqb_spec k0 k) as [-> | N]; simpl.
  - apply get_none_not_in in Hk0. rewrite IH, Hk0 by assumption. reflexivity.
  - apply IH, Hd.
Qed.

Lemma filter_or_length {A} (p q : A -> bool) (l : list A) :
  (forall x, p x = true -> q x = false) ->
  List.length (filter (fun x => p x || q x) l) =
  (List.length (filter p l) + List.length (filter q l))%nat.
Proof.
  intros Hpq. induction l as [| x l IH]; simpl; [reflexivity |].
  destruct (p x) eqn:Hp; simpl.
  - rewrite (Hpq x Hp). simpl. rewrite IH. reflexivity.
  - destruct (q x); simpl; rewrite IH; lia.
Qed.

(** C1: for every base frequency [f], [w] in {2, 4} and [c >= 1], the plan
    of [get_clocks f w c] holds, for the four roles of [defs], a PHY domain
    at [c*f], a command-clock double-rate domain at [2*c*f], a
    command/address quad-rate domain at [4*c*f] and a write-clock
    double-rate domain at [2*w*c*f]; and every derived domain of the plan
    runs at one of these four frequencies. *)
Theorem get_clocks_role_frequencies (f w c : Z) :
  w = 2 \/ w = 4 -> 1 <= c ->
  option_map freq_hz (role_domain f w c "phy") = Some (c * f) /\
  option_map freq_hz (role_domain f w c "ck") = Some (c * f) /\
  option_map freq_hz (role_domain f w c "ck_ddr") = Some (2 * c * f) /\
  option_map freq_hz (role_domain f w c "ca_ddr") = Some (4 * c * f) /\
  option_map freq_hz (role_domain f w c "wck_ddr") = Some (2 * w * c * f) /\
  Forall (fun e => fst e = "sys" \/
                   In (freq_hz (snd e))
                      [c * f; 2 * c * f; 4 * c * f; 2 * w * c * f])
         (get_clocks f w c).
Proof.
  intros _ _.
  assert (R : forall r, In r (multipliers w c) ->
            option_map freq_hz (Dict.get (get_clocks f w c) (sys_x r))
            = Some (r * f)).
  { intros r Hr. destruct (get_clocks_pair f w c r Hr) as [-> _].
    reflexivity. }
  unfold role_domain, clock_defs. simpl Dict.get.
  repeat split; try (apply R; unfold multipliers; simpl; tauto).
  eapply Forall_impl; [| apply get_clocks_entries].
  intros e [-> | (r & Hr & [-> | ->])]; [left; reflexivity | |];
    right; unfold multipliers in Hr; simpl in Hr; simpl;
    intuition (subst; auto).
Qed.

Lemma get_clocks_role_frequencies_witness :
  (2 = 2 \/ 2 = 4) /\ 1 <= 1 /\
  option_map freq_hz (role_domain 100000000 2 1 "wck_ddr")
  = Some (2 * 2 * 1 * 100000000).
Proof.
  split; [left; reflexivity | split; [lia |]].
  apply (get_clocks_role_frequencies 100000000 2 1); [left; reflexivity | lia].
Defined.

(** C2: for every multiplier [r] the planner computes, the plan contains
    exactly two entries made for [r], the one named [sys{r}x] at phase 0
    and the one named [sys{r}x_180] at phase 180, both at [r*f]. *)
Theorem get_clocks_two_phases (f w c r : Z) :
  In r (multipliers w c) ->
  List.length (entries_for r (get_clocks f w c)) = 2%nat /\
  (forall e, In e (entries_for r (get_clocks f w c)) <->
             e = (sys_x r, plain f r) \/ e = (sys_x_180 r, shifted f r)) /\
  freq_hz (plain f r) = r * f /\ phase_of (plain f r) = 0 /\
  freq_hz (shifted f r) = r * f /\ phase_of (shifted f r) = 180.
Proof.
  intros Hr.
  destruct (get_clocks_pair f w c r Hr) as [H0 H180].
  pose proof (get_clocks_nodup f w c) as Hnd.
  split; [| split; [| repeat split]].
  - unfold entries_for. rewrite filter_or_length.
    + rewrite !filter_key_length, H0, H180 by assumption. reflexivity.
    + intros [k v]. simpl. intros E. apply String.eqb_eq in E. subst k.
      apply eqb_sys_x_not_180.
  - intros [k v]. unfold entries_for. rewrite filter_In. simpl. split.
    + intros [Hin E]. apply orb_true_iff in E.
      destruct E as [E | E]; apply String.eqb_eq in E; subst k;
        apply (in_get_some _ _ _ Hnd) in Hin.
      * left. congruence.
      * right. congruence.
    + intros [[= -> ->] | [= -> ->]].
      * split; [apply get_some_in, H0 |].
        rewrite String.eqb_refl. reflexivity.
      * split; [apply get_some_in, H180 |].
        rewrite String.eqb_refl. apply orb_true_r.
Qed.

Lemma get_clocks_two_phases_witness :
  In 2 (multipliers 2 1) /\
  List.length (entries_for 2 (get_clocks 100000000 2 1)) = 2%nat.
Proof.
  split; [simpl; tauto |].
  apply (get_clocks_two_phases 100000000 2 1 2). simpl. tauto.
Defined.

(** C7: for all base frequencies [f] and ratios [(w, c)], every entry of the
    plan has a frequency that is an integer multiplier times [f]; the name
    of a derived entry embeds that multiplier ([sys{r}x] or [sys{r}x_180])
    and the base entry [sys] has multiplier 1; no two entries share a name;
    and a name that occurs in the plans of two ratio configurations stands
    for the same clock in both. *)
Theorem get_clocks_names_and_multipliers (f w c : Z) :
  Forall (fun e => exists r : Z,
            freq_hz (snd e) = r * f /\
            (fst e = "sys" /\ r = 1 \/
             fst e = sys_x r \/ fst e = sys_x_180 r))
         (get_clocks f w c) /\
  NoDup (Dict.keys (get_clocks f w c)) /\
  (forall w' c' k d d',
     Dict.get (get_clocks f w c) k = Some d ->
     Dict.get (get_clocks f w' c') k = Some d' -> d = d').
Proof.
  split; [| split].
  - eapply Forall_impl; [| apply get_clocks_entries].
    intros e [-> | (r & _ & [-> | ->])].
    + exists 1. cbn [snd fst freq_hz]. split; [lia | left; auto].
    + exists r. simpl. auto.
    + exists r. simpl. auto.
  - apply get_clocks_nodup.
  - intros w' c' k d d' H H'.
    apply get_some_in in H, H'.
    pose proof (get_clocks_entries f w c) as E.
    pose proof (get_clocks_entries f w' c') as E'.
    rewrite Forall_forall in E, E'.
    destruct (E _ H) as [He | (r & _ & [He | He])];
      destruct (E' _ H') as [He' | (r' & _ & [He' | He'])];
      injection He as Hk Hd; injection He' as Hk' Hd'; subst d d';
      rewrite Hk in Hk'; rename Hk' into Hn;
      try reflexivity;
      try (exfalso; first
             [ exact (sys_not_sys_x _ Hn)
             | exact (sys_not_sys_x _ (eq_sym Hn))
             | exact (sys_not_sys_x_180 _ Hn)
             | exact (sys_not_sys_x_180 _ (eq_sym Hn))
             | exact (sys_x_not_180 _ _ Hn)
             | exact (sys_x_not_180 _ _ (eq_sym Hn)) ]).
    + apply sys_x_inj in Hn. subst. reflexivity.
    + apply sys_x_180_inj in Hn. subst. reflexivity.
Qed.

(** C10: for every [sys_clk_freq] and [c >= 1], [get_clocks] returns
    exactly 7 named entries when [wck_ck_ratio = 2] and exactly 9 when it
    is 4: the base entry [sys], which has no 180-degree counterpart, and
    one 0/180-degree pair for each distinct multiplier, [c], [2c], [4c]
    and, for ratio 4 only, [8c]. *)
Theorem get_clocks_entry_count (f w c : Z) :
  w = 2 \/ w = 4 -> 1 <= c ->
  Dict.len (get_clocks f w c) = (if w =? 2 then 7%nat else 9%nat) /\
  Dict.keys (get_clocks f w c) =
    "sys" :: flat_map (fun r => [sys_x r; sys_x_180 r])
               (if w =? 2 then [c; 2 * c; 4 * c]
                else [c; 2 * c; 4 * c; 2 * 4 * c]) /\
  NoDup (Dict.keys (get_clocks f w c)).
Proof.
  intros Hw Hc.
  assert (K : Dict.keys (get_clocks f w c) =
    "sys" :: flat_map (fun r => [sys_x r; sys_x_180 r])
               (if w =? 2 then [c; 2 * c; 4 * c]
                else [c; 2 * c; 4 * c; 2 * 4 * c])).
  { unfold get_clocks, Clocks, clock_defs, add_clock_pair.
    cbn [fold_left snd].
    destruct Hw as [-> | ->]; cbn [Z.eqb Pos.eqb]; run_sets; reflexivity. }
  split; [| split].
  - unfold Dict.len. rewrite <- (length_map fst).
    fold (Dict.keys (get_clocks f w c)). rewrite K.
    destruct Hw as [-> | ->]; reflexivity.
  - exact K.
  - apply get_clocks_nodup.
Qed.

Lemma get_clocks_entry_count_witness :
  (4 = 2 \/ 4 = 4) /\ 1 <= 3 /\
  Dict.len (get_clocks 50000000 4 3) = 9%nat.
Proof.
  split; [right; reflexivity | split; [lia |]].
  apply (get_clocks_entry_count 50000000 4 3); [right; reflexivity | lia].
Defined.

(** ** The clock mapping *)

Lemma in_multipliers (w c r : Z) :
  r = c \/ r = 2 * c \/ r = 4 * c \/ r = 2 * w * c ->
  In r (multipliers w c).
Proof. unfold multipliers, clock_defs. cbn [map snd In]. intuition. Qed.

Lemma clock_mapping_entries (dd mw : bool) (w c : Z) :
  w = 2 \/ w = 4 ->
  clock_mapping (mkArgs dd mw w c) =
  [ ("sys", sys_x c);
    (sys_x 2, sys_x (c * 2));
    (sys_x_180 2, sys_x_180 (c * 2));
    (sys_x (2 * w), sys_x (c * (2 * w)));
    (sys_x_180 (2 * w), sys_x_180 (c * (2 * w))) ].
Proof.
  intros Hw. unfold clock_mapping, add_mapping_pair.
  cbn [fold_left wck_ck_ratio dfi_converter_ratio].
  run_sets. reflexivity.
Qed.

(** C4: for [w] in {2, 4} and [c >= 1], every entry of [clock_mapping]
    sends a domain of the ratio-1 plan, [sys], [sys{r}x] or [sys{r}x_180]
    for [r] in {2, 2w}, to a domain that exists in the plan of
    [get_clocks f w c]; the target runs at [c] times the frequency of the
    domain it replaces and keeps its phase. *)
Theorem clock_mapping_targets_in_plan (f w c : Z) (dd mw : bool) :
  w = 2 \/ w = 4 -> 1 <= c ->
  Forall (fun m => exists ds dt : ClockDesc,
            Dict.get (get_clocks f w 1) (fst m) = Some ds /\
            Dict.get (get_clocks f w c) (snd m) = Some dt /\
            freq_hz dt = c * freq_hz ds /\
            phase_deg dt = phase_deg ds)
         (clock_mapping (mkArgs dd mw w c)).
Proof.
  intros Hw _. rewrite (clock_mapping_entries dd mw w c Hw).
  assert (P : forall r, In r (multipliers w 1) -> In (c * r) (multipliers w c) ->
            (exists ds dt,
               Dict.get (get_clocks f w 1) (sys_x r) = Some ds /\
               Dict.get (get_clocks f w c) (sys_x (c * r)) = Some dt /\
               freq_hz dt = c * freq_hz ds /\ phase_deg dt = phase_deg ds) /\
            (exists ds dt,
               Dict.get (get_clocks f w 1) (sys_x_180 r) = Some ds /\
               Dict.get (get_clocks f w c) (sys_x_180 (c * r)) = Some dt /\
               freq_hz dt = c * freq_hz ds /\ phase_deg dt = phase_deg ds)).
  { intros r H1 Hc.
    destruct (get_clocks_pair f w 1 r H1) as [A1 B1].
    destruct (get_clocks_pair f w c (c * r) Hc) as [Ac Bc].
    split; eexists; eexists; (split; [eassumption |]);
      (split; [eassumption |]); cbn [plain shifted freq_hz phase_deg];
      split; [ring | reflexivity | ring | reflexivity]. }
  destruct (P 2) as [P2 P2']; try (apply in_multipliers; lia).
  destruct (P (2 * w)) as [Pw Pw']; try (apply in_multipliers; lia).
  repeat constructor; cbn [fst snd]; try assumption.
  exists (mkClock f None), (plain f c).
  split; [apply get_clocks_sys |].
  split; [apply get_clocks_pair, in_multipliers; lia |].
  cbn [plain freq_hz phase_deg]. split; reflexivity.
Qed.

Lemma clock_mapping_targets_in_plan_witness :
  (4 = 2 \/ 4 = 4) /\ 1 <= 2 /\
  Forall (fun m => exists ds dt : ClockDesc,
            Dict.get (get_clocks 100000000 4 1) (fst m) = Some ds /\
            Dict.get (get_clocks 100000000 4 2) (snd m) = Some dt /\
            freq_hz dt = 2 * freq_hz ds /\
            phase_deg dt = phase_deg ds)
         (clock_mapping (mkArgs false true 4 2)).
Proof.
  split; [right; reflexivity | split; [lia |]].
  apply (clock_mapping_targets_in_plan 100000000 4 2 false true);
    [right; reflexivity | lia].
Defined.

(** ** The timings handed to the checker *)

Lemma checker_timings_entries (a : SimSoCArgs) (f n : Z) (t : Dict.dict timing) :
  checker_timings a f n = Some t ->
  exists tck, checker_tCK f n = Some tck /\
    Dict.get t "tCK" = Some (TFloat tck) /\
    Dict.get t "tCCD" = Some (LPDDR5ExampleModule.tccd MaskedWrite) /\
    Dict.keys t = "tCK" :: _speedgrade_timings ++ _technology_timings.
Proof.
  unfold checker_timings. destruct (checker_tCK f n) as [tck |]; [| discriminate].
  intros [= <-]. exists tck. repeat split.
Qed.

(** C3, as the code has it: the module defines a column-to-column delay of
    8 cycles for a plain write and of 32 cycles for a masked write, and the
    table handed to the checker carries the masked-write value under
    [tCCD] whatever the arguments, [masked_write] included; that flag only
    reaches the PHY. *)
Theorem checker_tCCD_is_masked_write
    (a : SimSoCArgs) (f n : Z) (t : Dict.dict timing) :
  checker_timings a f n = Some t ->
  Dict.get t "tCCD" = Some (TTuple (Some 32) None) /\
  LPDDR5ExampleModule.tccd MaskedWrite = TTuple (Some 32) None /\
  LPDDR5ExampleModule.tccd PlainWrite = TTuple (Some 8) None /\
  (forall mw : bool,
     checker_timings
       (mkArgs (disable_delay a) mw (wck_ck_ratio a) (dfi_converter_ratio a))
       f n = Some t) /\
  phy_masked_write (ddrphy_args a f) = masked_write a.
Proof.
  intros H.
  destruct (checker_timings_entries a f n t H) as (tck & _ & _ & E & _).
  repeat split; [exact E | intros mw; exact H].
Qed.

Lemma checker_tCCD_is_masked_write_witness :
  exists t,
    checker_timings (mkArgs false false 2 1) 100000000 1 = Some t /\
    Dict.get t "tCCD" = Some (TTuple (Some 32) None).
Proof.
  eexists. split; [vm_compute; reflexivity |].
  eapply (checker_tCCD_is_masked_write (mkArgs false false 2 1) 100000000 1).
  vm_compute. reflexivity.
Defined.

(** C3, as stated, fails: with [masked_write] off the PHY issues plain
    writes, yet the checker's [tCCD] is not the plain-write value. *)
Lemma tccd_not_selected_by_write_form : ~ tccd_selected_by_write_form.
Proof.
  intros H.
  destruct (checker_timings (mkArgs false false 2 1) 100000000 1)
    as [t |] eqn:E; [| vm_compute in E; discriminate].
  pose proof (H _ _ _ _ E) as Hsel.
  destruct (checker_timings_entries _ _ _ _ E) as (_ & _ & _ & Hmw & _).
  rewrite Hmw in Hsel. discriminate.
Qed.

(** C9, as the code has it: the value stored under ["tCK"] in the table
    handed to the checker is [(1e9 / sys_clk_freq) / nphases], where
    [nphases] is the number of phases of the wrapped PHY,
    [dfi_converter_ratio] times that of the PHY itself.  The value
    therefore follows the converter ratio: at 100 MHz with a one-phase
    PHY it is 10.0 ns without conversion and 5.0 ns at ratio 2, which is
    the period of the converted PHY clock, [dfi_converter_ratio *
    sys_clk_freq]. *)
Theorem soc_tCK_follows_wrapped_phases (dd mw : bool) (w c f n : Z) :
  let a := mkArgs dd mw w c in
  option_map (fun t => Dict.get t "tCK") (soc_checker_timings a f n) =
  option_map (fun tck => Some (TFloat tck))
    (match float_div_int (float_lit 1000000000) f with
     | Some period => float_div_int period (c * n)
     | None => None
     end) /\
  phy_sys_clk_freq (ddrphy_args a f) = c * f /\
  soc_checker_tCK (mkArgs dd mw w 1) 100000000 1
  = Some (S754_finite false 5629499534213120 (-49)) /\
  soc_checker_tCK (mkArgs dd mw w 2) 100000000 1
  = Some (S754_finite false 5629499534213120 (-50)) /\
  float_div_int (float_lit 1000000000)
    (phy_sys_clk_freq (ddrphy_args (mkArgs dd mw w 2) 100000000))
  = Some (S754_finite false 5629499534213120 (-50)).
Proof.
  cbn zeta. split; [| repeat split; vm_compute; reflexivity].
  unfold soc_checker_timings, soc_nphases, wrapped_nphases.
  cbn [dfi_converter_ratio]. fold (checker_tCK f (c * n)).
  destruct (checker_timings (mkArgs dd mw w c) f (c * n)) as [t |] eqn:E.
  - cbn [option_map].
    destruct (checker_timings_entries _ f (c * n) t E) as (tck & -> & -> & _).
    reflexivity.
  - unfold checker_timings in E.
    destruct (checker_tCK f (c * n)); [discriminate | reflexivity].
Qed.

(** C9, as stated, fails: at 100 MHz with a one-phase PHY the [tCK] stored
    without conversion is 10.0 ns and the one stored at ratio 2 is
    5.0 ns. *)
Lemma tCK_depends_on_converter_ratio : ~ tCK_independent_of_converter_ratio.
Proof.
  intros H. specialize (H false true 2 1 2 100000000 1).
  vm_compute in H. discriminate.
Qed.

(** ** The rate converter adapter *)

Section AdapterFacts.

Import RateConverterAdapter.

Variable Attr : Type.
Variable converter_latency : Z -> Z.

Lemma forward_step_below (inner out : Dict.dict Attr) name :
  below inner out -> below inner (forward_step inner out name).
Proof.
  unfold below, forward_step. intros H k v.
  destruct (Dict.get inner name) as [v0 |] eqn:E; [| apply H].
  rewrite get_set.
  destruct (String.eqb_spec name k) as [<- | _]; [congruence | apply H].
Qed.

Lemma forward_loop_below (inner : Dict.dict Attr) names out :
  below inner out -> below inner (fold_left (forward_step inner) names out).
Proof.
  revert out. induction names as [| n names IH]; simpl; intros out H; auto.
  apply IH, forward_step_below, H.
Qed.

Lemma forward_loop_keeps (inner : Dict.dict Attr) names out k v :
  below inner out -> Dict.get out k = Some v ->
  Dict.get (fold_left (forward_step inner) names out) k = Some v.
Proof.
  revert out. induction names as [| n names IH]; simpl; intros out H E; auto.
  apply IH; [apply forward_step_below, H |].
  unfold forward_step. destruct (Dict.get inner n) as [v0 |] eqn:En; [| exact E].
  rewrite get_set.
  destruct (String.eqb_spec n k) as [-> | _]; [| exact E].
  apply H in E. congruence.
Qed.

Lemma forward_loop_get (inner : Dict.dict Attr) names out name :
  below inner out -> In name names ->
  Dict.get (fold_left (forward_step inner) names out) name = Dict.get inner name.
Proof.
  revert out. induction names as [| n names IH]; simpl; intros out H Hin.
  - destruct Hin.
  - destruct (in_dec string_dec name names) as [Hn | Hn].
    + apply IH; [apply forward_step_below, H | exact Hn].
    + destruct Hin as [-> | Hin]; [| contradiction].
      destruct (Dict.get inner name) as [v |] eqn:E.
      * apply forward_loop_keeps; [apply forward_step_below, H |].
        unfold forward_step. rewrite E, get_set, String.eqb_refl. reflexivity.
      * destruct (Dict.get (fold_left (forward_step inner) names (forward_step inner out name))
                           name) as [v |] eqn:E'; [| reflexivity].
        apply forward_loop_below in E'; [congruence |].
        apply forward_step_below, H.
Qed.

(** At any ratio, a forwarded attribute reads on the adapter as it does
    on the inner engine. *)
Lemma forward_get (names : list string) (inner : Dict.dict Attr) name :
  In name names ->
  Dict.get (forward names inner) name = Dict.get inner name.
Proof.
  intros H. unfold forward. apply (forward_loop_get inner names [] name).
  - intros k v. discriminate.
  - exact H.
Qed.

(** Applied as a renaming, the table built for ratio 1 is not the
    identity: it sends [sys] to [sys1x]. *)
Lemma clock_mapping_ratio_1_renames_sys (dd mw : bool) (w : Z) :
  rename (clock_mapping (mkArgs dd mw w 1)) "sys" = "sys1x".
Proof.
  unfold rename, clock_mapping, add_mapping_pair.
  cbn [fold_left wck_ck_ratio dfi_converter_ratio].
  rewrite !get_set. autorewrite with names. reflexivity.
Qed.

(** C5: wrapping the PHY with ratio 1 gives the PHY itself: every
    attribute of [phy_attrs] reads the same on both, the latency is that
    of the PHY and every reference to a clock domain is left as it was. *)
Theorem sim_phy_ratio_1_is_phy
    (phy : Engine Attr) (dd mw : bool) (w : Z) :
  let adapter := sim_phy converter_latency (mkArgs dd mw w 1) phy in
  Forall (fun name => Dict.get (attrs adapter) name
                      = Dict.get (attrs phy) name) phy_attrs /\
  latency adapter = latency phy /\
  clock_refs adapter = clock_refs phy /\
  adapter = phy.
Proof.
  unfold sim_phy, wrap. cbn [dfi_converter_ratio Z.eqb Pos.eqb].
  repeat split. apply Forall_forall. reflexivity.
Qed.

End AdapterFacts.

(** ** The reporting gate *)

Section GateFacts.

Import DFITimingsChecker.

Variables State Input Event : Type.
Variable findings : State -> Input -> list Event.
Variable commit : State -> Input -> State.

Local Abbreviation run := (run findings commit).
Local Abbreviation occurring := (occurring findings commit).
Local Abbreviation state_after := (state_after commit).

Lemma run_app s t1 t2 :
  run s (t1 ++ t2) =
  (fst (run (fst (run s t1)) t2), snd (run s t1) ++ snd (run (fst (run s t1)) t2)).
Proof.
  revert s. induction t1 as [| [en i] t1 IH]; intros s.
  - simpl. destruct (run s t2). reflexivity.
  - simpl. rewrite IH.
    destruct (run (commit s i) t1) as [s1 out1].
    simpl. rewrite app_assoc. reflexivity.
Qed.

(** For any pattern of the enable, the state evolves as if every cycle
    were checked, and what is reported is what occurs in the enabled
    cycles. *)
Lemma run_gated s (trace : list (bool * Input)) :
  run s trace =
  (state_after s (map snd trace),
   List.concat (map (fun x : bool * Input * list Event =>
                  if fst (fst x) then snd x else [])
               (combine trace (occurring s (map snd trace))))).
Proof.
  revert s. induction trace as [| [en i] trace IH]; intros s.
  - reflexivity.
  - unfold DFITimingsChecker.state_after in *. simpl. rewrite IH.
    reflexivity.
Qed.

Lemma run_disabled s (inputs : list Input) :
  run s (map (pair false) inputs) = (state_after s inputs, []).
Proof.
  revert s. induction inputs as [| i inputs IH]; intros s.
  - reflexivity.
  - unfold DFITimingsChecker.state_after in *. simpl. rewrite IH.
    reflexivity.
Qed.

Lemma run_enabled s (inputs : list Input) :
  run s (map (pair true) inputs) =
  (state_after s inputs, List.concat (occurring s inputs)).
Proof.
  revert s. induction inputs as [| i inputs IH]; intros s.
  - reflexivity.
  - unfold DFITimingsChecker.state_after in *. simpl. rewrite IH.
    reflexivity.
Qed.

(** C6: with [disable_delay] the enable is [ddrctrl.init_done].  While it
    is clear the checker records every command (its state advances
    through the whole trace) and reports nothing; from the cycle it is
    set, the report is every violation that occurs from then on, judged
    against the state the disabled period left, and nothing from
    before. *)
Theorem soc_run_reports_after_init_done
    (mw : bool) (w c : Z) (reset_value : bool) (s : State)
    (before after : list Input) :
  let a := mkArgs true mw w c in
  soc_run findings commit a reset_value s
    (map (pair false) before) = (state_after s before, []) /\
  soc_run findings commit a reset_value s
    (map (pair false) before ++ map (pair true) after) =
  (state_after s (before ++ after),
   List.concat (occurring (state_after s before) after)).
Proof.
  cbn zeta. unfold soc_run, checker_logging_enabled. cbn [disable_delay].
  rewrite map_app, !map_map. cbn [fst snd].
  split; [apply run_disabled |].
  rewrite run_app, run_disabled, run_enabled. cbn [fst snd app].
  unfold DFITimingsChecker.state_after.
  rewrite fold_left_app. reflexivity.
Qed.

End GateFacts.

(** ** Binding cycle requirement *)

Section Binding.

Import TimingParameter.

Lemma ns_to_cycles_covers (ns tCK : Q) :
  (0 < tCK)%Q -> (ns <= inject_Z (ns_to_cycles ns tCK) * tCK)%Q.
Proof.
  intros H. unfold ns_to_cycles.
  assert (N : ~ (tCK == 0)%Q) by (intros E; rewrite E in H; discriminate).
  rewrite <- (Qmult_div_r ns tCK N) at 1.
  rewrite Qmult_comm. apply Qmult_le_compat_r.
  - apply Qle_ceiling.
  - apply Qlt_le_weak, H.
Qed.

Lemma ns_to_cycles_least (ns tCK : Q) (k : Z) :
  (0 < tCK)%Q -> (ns <= inject_Z k * tCK)%Q -> ns_to_cycles ns tCK <= k.
Proof.
  intros H Hk. unfold ns_to_cycles.
  rewrite <- (Qceiling_Z k). apply Qceiling_resp_le.
  apply Qle_shift_div_r; assumption.
Qed.

(** The binding requirement is the least cycle count that meets both
    components of the parameter. *)
Lemma binding_cycles_least (p : t) (tCK : Q) (k : Z) :
  (0 < tCK)%Q -> binding_cycles p tCK = Some k ->
  meets p tCK k /\ forall k', meets p tCK k' -> k <= k'.
Proof.
  intros H. unfold binding_cycles, meets.
  destruct (cycles p) as [c |], (nanoseconds p) as [ns |];
    intros [= <-]; (split; [split |]).
  - intros ? [= <-]. lia.
  - intros ? [= <-].
    eapply Qle_trans; [apply (ns_to_cycles_covers ns tCK H) |].
    apply Qmult_le_compat_r; [| apply Qlt_le_weak, H].
    rewrite <- Zle_Qle. lia.
  - intros k' [Hc Hns].
    pose proof (Hc _ eq_refl).
    pose proof (ns_to_cycles_least ns tCK k' H (Hns _ eq_refl)). lia.
  - intros ? [= <-]. lia.
  - discriminate.
  - intros k' [Hc _]. apply Hc. reflexivity.
  - discriminate.
  - intros ? [= <-]. apply ns_to_cycles_covers, H.
  - intros k' [_ Hns]. apply ns_to_cycles_least; auto.
Qed.

(** C8: the binding cycle requirement of a timing parameter is
    [max(cycles, ceil(nanoseconds / tCK))], a component that is absent
    imposing no bound: it is the least cycle count that meets the
    components that are present.  With 3 cycles and 10 ns at a 2 ns clock
    period it is 5, and with no cycle count and 4 ns at a 2 ns period it
    is 2. *)
Theorem binding_cycles_is_max (nm : string) (c : Z) (ns tCK : Q) :
  (0 < tCK)%Q ->
  binding_cycles (mk nm (Some c) (Some ns)) tCK
  = Some (Z.max c (Qceiling (ns / tCK))) /\
  binding_cycles (mk nm None (Some ns)) tCK = Some (Qceiling (ns / tCK)) /\
  binding_cycles (mk nm (Some c) None) tCK = Some c /\
  binding_cycles (mk nm (Some 3) (Some 10%Q)) 2%Q = Some 5 /\
  binding_cycles (mk nm None (Some 4%Q)) 2%Q = Some 2 /\
  (forall (p : t) (k : Z),
     binding_cycles p tCK = Some k ->
     meets p tCK k /\ forall k', meets p tCK k' -> k <= k').
Proof.
  intros H. do 5 (split; [reflexivity |]).
  intros p k. apply binding_cycles_least, H.
Qed.

Lemma binding_cycles_is_max_witness :
  (0 < 2)%Q /\
  binding_cycles (mk "tWTR" (Some 3) (Some 10%Q)) 2%Q = Some 5.
Proof.
  split; [reflexivity |].
  destruct (binding_cycles_is_max "tWTR" 3 10%Q 2%Q eq_refl)
    as (_ & _ & _ & E & _).
  exact E.
Defined.

End Binding.

(** * Further properties of the source *)

(** ** Keys of a dictionary under assignment *)

Lemma keys_set_present {V} (d : Dict.dict V) k v :
  In k (Dict.keys d) -> Dict.keys (Dict.set k v d) = Dict.keys d.
Proof.
  unfold Dict.keys.
  induction d as [| [k0 v0] d IH]; simpl; intros H; [destruct H |].
  destruct (String.eqb_spec k0 k) as [-> | N]; simpl; [reflexivity |].
  destruct H as [H | H]; [contradiction |]. rewrite IH by exact H.
  reflexivity.
Qed.

Lemma keys_set_absent {V} (d : Dict.dict V) k v :
  ~ In k (Dict.keys d) -> Dict.keys (Dict.set k v d) = Dict.keys d ++ [k].
Proof.
  unfold Dict.keys.
  induction d as [| [k0 v0] d IH]; simpl; intros H; [reflexivity |].
  destruct (String.eqb_spec k0 k) as [-> | N]; simpl.
  - exfalso. apply H. left. reflexivity.
  - rewrite IH; [reflexivity |]. intros Hin. apply H. right. exact Hin.
Qed.

(** ** Key order and size of the clock plan *)

Lemma in_domain_pairs (k : string) (rs : list Z) :
  In k (flat_map domain_pair rs) <->
  exists r, In r rs /\ (k = sys_x r \/ k = sys_x_180 r).
Proof.
  rewrite in_flat_map. unfold domain_pair. simpl.
  split; intros (r & Hr & H); exists r; intuition.
Qed.

Lemma existsb_eqb_in (r : Z) (rs : list Z) :
  existsb (Z.eqb r) rs = true <-> In r rs.
Proof.
  rewrite existsb_exists. split.
  - intros (x & Hx & E). apply Z.eqb_eq in E. subst. exact Hx.
  - intros H. exists r. split; [exact H | apply Z.eqb_refl].
Qed.

Lemma add_clock_pair_keys f (d : Dict.dict ClockDesc) (it : string * Z) seen :
  Dict.keys d = "sys" :: flat_map domain_pair seen ->
  Dict.keys (add_clock_pair f d it)
  = "sys" :: flat_map domain_pair (note_ratio seen (snd it)).
Proof.
  intros K. unfold add_clock_pair, note_ratio.
  destruct (existsb (Z.eqb (snd it)) seen) eqn:E.
  - apply existsb_eqb_in in E.
    rewrite !keys_set_present; [exact K | |].
    + rewrite K. right. apply in_domain_pairs. eauto.
    + rewrite keys_set_present; rewrite K; right; apply in_domain_pairs; eauto.
  - assert (N : ~ In (snd it) seen).
    { intros H. apply existsb_eqb_in in H. congruence. }
    rewrite (keys_set_absent (Dict.set _ _ d)).
    + rewrite keys_set_absent.
      * rewrite K, flat_map_app. simpl. rewrite <- app_assoc. reflexivity.
      * rewrite K. intros [H | H]; [exact (sys_not_sys_x _ H) |].
        apply in_domain_pairs in H. destruct H as (r & Hr & [H | H]).
        -- apply sys_x_inj in H. subst. contradiction.
        -- exact (sys_x_not_180 _ _ H).
    + rewrite keys_set_absent.
      * rewrite K. intros H. apply in_app_or in H.
        destruct H as [[H | H] | [H | []]].
        -- exact (sys_not_sys_x_180 _ H).
        -- apply in_domain_pairs in H. destruct H as (r & Hr & [H | H]).
           ++ exact (sys_x_not_180 _ _ (eq_sym H)).
           ++ apply sys_x_180_inj in H. subst. contradiction.
        -- exact (sys_x_not_180 _ _ H).
      * rewrite K. intros [H | H]; [exact (sys_not_sys_x _ H) |].
        apply in_domain_pairs in H. destruct H as (r & Hr & [H | H]).
        -- apply sys_x_inj in H. subst. contradiction.
        -- exact (sys_x_not_180 _ _ H).
Qed.

Lemma clock_loop_keys f items (d : Dict.dict ClockDesc) seen :
  Dict.keys d = "sys" :: flat_map domain_pair seen ->
  Dict.keys (fold_left (add_clock_pair f) items d)
  = "sys" :: flat_map domain_pair (fold_left note_ratio (map snd items) seen).
Proof.
  revert d seen. induction items as [| it items IH]; simpl; intros d seen K.
  - exact K.
  - apply IH, add_clock_pair_keys, K.
Qed.

Lemma get_clocks_keys f w c :
  Dict.keys (get_clocks f w c)
  = "sys" :: flat_map domain_pair (distinct_ratios (multipliers w c)).
Proof.
  unfold get_clocks, Clocks, distinct_ratios, multipliers.
  apply clock_loop_keys. reflexivity.
Qed.

Lemma length_domain_pairs (rs : list Z) :
  List.length (flat_map domain_pair rs) = (2 * List.length rs)%nat.
Proof. induction rs as [| r rs IH]; simpl; lia. Qed.

Lemma distinct_multipliers_bounds (w c : Z) :
  (1 <= List.length (distinct_ratios (multipliers w c)) <= 4)%nat.
Proof.
  unfold distinct_ratios, multipliers, clock_defs.
  cbn [map snd fold_left]. unfold note_ratio.
  cbn [existsb orb app]. rewrite Z.eqb_refl. cbn [orb app existsb].
  repeat (match goal with
          | |- context [Z.eqb ?a ?b] => destruct (Z.eqb a b)
          end; cbn [existsb orb app]);
    cbn [List.length]; lia.
Qed.

(** X1: for all integers [f], [w] and [c], the keys of the plan are [sys]
    followed by the pair [sys{r}x], [sys{r}x_180] of every distinct
    multiplier, in the order the multipliers first appear in [defs]; so
    the names do not depend on the base frequency, and the plan has an odd
    number of entries, at least 3 and at most 9. *)
Theorem get_clocks_key_order (f w c : Z) :
  Dict.keys (get_clocks f w c)
  = "sys" :: flat_map domain_pair (distinct_ratios (multipliers w c)) /\
  (forall f' : Z, Dict.keys (get_clocks f' w c) = Dict.keys (get_clocks f w c)) /\
  Dict.len (get_clocks f w c)
  = (1 + 2 * List.length (distinct_ratios (multipliers w c)))%nat /\
  (3 <= Dict.len (get_clocks f w c) <= 9)%nat.
Proof.
  assert (L : Dict.len (get_clocks f w c)
              = (1 + 2 * List.length (distinct_ratios (multipliers w c)))%nat).
  { unfold Dict.len. rewrite <- (length_map fst).
    fold (Dict.keys (get_clocks f w c)). rewrite get_clocks_keys.
    simpl List.length. rewrite length_domain_pairs. lia. }
  split; [apply get_clocks_keys |].
  split; [intros f'; rewrite !get_clocks_keys; reflexivity |].
  split; [exact L |].
  rewrite L. pose proof (distinct_multipliers_bounds w c). lia.
Qed.

(** ** Domain names *)

(** X2: the names [get_clocks] and [clock_mapping] format are unambiguous:
    two multipliers give the same name only when they are equal, a
    0-degree name is never a 180-degree name, and neither is ever the
    base name [sys]. *)
Theorem domain_names_unambiguous (a b : Z) :
  (sys_x a = sys_x b <-> a = b) /\
  (sys_x_180 a = sys_x_180 b <-> a = b) /\
  sys_x a <> sys_x_180 b /\
  sys_x a <> "sys" /\
  sys_x_180 a <> "sys".
Proof.
  repeat split; try (intros ->; reflexivity).
  - apply sys_x_inj.
  - apply sys_x_180_inj.
  - apply sys_x_not_180.
  - intros H. exact (sys_not_sys_x a (eq_sym H)).
  - intros H. exact (sys_not_sys_x_180 a (eq_sym H)).
Qed.

(** ** More on the clock plan *)

(** X3: for every integer [r], the plan holds either both domains of [r],
    [sys{r}x] with no phase and [sys{r}x_180] at 180 degrees, both at
    [r*f], or neither of them: no shifted clock lacks its unshifted twin. *)
Theorem get_clocks_twins (f w c r : Z) :
  (Dict.get (get_clocks f w c) (sys_x r) = Some (mkClock (r * f) None) /\
   Dict.get (get_clocks f w c) (sys_x_180 r)
   = Some (mkClock (r * f) (Some 180))) \/
  (Dict.get (get_clocks f w c) (sys_x r) = None /\
   Dict.get (get_clocks f w c) (sys_x_180 r) = None).
Proof.
  destruct (in_dec Z.eq_dec r (multipliers w c)) as [Hr | Hr].
  - left. exact (get_clocks_pair f w c r Hr).
  - right.
    pose proof (get_clocks_entries f w c) as E. rewrite Forall_forall in E.
    split.
    + destruct (Dict.get (get_clocks f w c) (sys_x r)) as [d |] eqn:G;
        [| reflexivity].
      apply get_some_in, E in G.
      destruct G as [H | (r' & Hr' & [H | H])];
        apply (f_equal fst) in H; cbn [fst] in H.
      * exfalso. exact (sys_not_sys_x _ (eq_sym H)).
      * apply sys_x_inj in H. subst. contradiction.
      * exfalso. exact (sys_x_not_180 _ _ H).
    + destruct (Dict.get (get_clocks f w c) (sys_x_180 r)) as [d |] eqn:G;
        [| reflexivity].
      apply get_some_in, E in G.
      destruct G as [H | (r' & Hr' & [H | H])];
        apply (f_equal fst) in H; cbn [fst] in H.
      * exfalso. exact (sys_not_sys_x_180 _ (eq_sym H)).
      * exfalso. exact (sys_x_not_180 _ _ (eq_sym H)).
      * apply sys_x_180_inj in H. subst. contradiction.
Qed.

(** X4: [SimSoC.__init__] reads back from the plan of [get_clocks f w c]
    the very frequency [f] the plan was made for, whatever the ratios:
    no derived domain ever overwrites [sys]. *)
Theorem soc_sys_clk_freq_of_get_clocks (f w c : Z) :
  soc_sys_clk_freq (get_clocks f w c) = Some f.
Proof. unfold soc_sys_clk_freq. rewrite get_clocks_sys. reflexivity. Qed.

(** X5: for a converter ratio other than 0, the plan for
    [wck_ck_ratio = 4] is the plan for [wck_ck_ratio = 2] followed by the
    pair of the multiplier [8c]: raising the ratio adds one clock pair and
    changes no other domain. *)
Theorem get_clocks_ratio_4_extends_ratio_2 (f c : Z) :
  c <> 0 ->
  get_clocks f 4 c =
  get_clocks f 2 c ++
  [ (sys_x (8 * c), mkClock (8 * c * f) None);
    (sys_x_180 (8 * c), mkClock (8 * c * f) (Some 180)) ].
Proof.
  intros Hc. unfold get_clocks, Clocks, clock_defs, add_clock_pair.
  cbn [fold_left snd]. run_sets. reflexivity.
Qed.

Lemma get_clocks_ratio_4_extends_ratio_2_witness :
  3 <> 0 /\
  get_clocks 50000000 4 3 =
  get_clocks 50000000 2 3 ++
  [ (sys_x (8 * 3), mkClock (8 * 3 * 50000000) None);
    (sys_x_180 (8 * 3), mkClock (8 * 3 * 50000000) (Some 180)) ].
Proof.
  split; [discriminate |].
  apply (get_clocks_ratio_4_extends_ratio_2 50000000 3). discriminate.
Defined.

(** ** More on the clock mapping *)

Lemma clock_mapping_get_sys (a : SimSoCArgs) :
  Dict.get (clock_mapping a) "sys" = Some (sys_x (dfi_converter_ratio a)).
Proof.
  unfold clock_mapping, add_mapping_pair. cbn [fold_left].
  rewrite !get_set. autorewrite with names. reflexivity.
Qed.

(** Solves a goal from the equality of two formatted names that cannot
    be equal. *)
Ltac names_clash :=
  match goal with
  | H : sys_x _ = sys_x_180 _ |- _ => exact (sys_x_not_180 _ _ H)
  | H : sys_x_180 _ = sys_x _ |- _ => exact (sys_x_not_180 _ _ (eq_sym H))
  | H : sys_x _ = sys_x _ |- _ => apply sys_x_inj in H; lia
  | H : sys_x_180 _ = sys_x_180 _ |- _ => apply sys_x_180_inj in H; lia
  end.

Lemma scaled_ratios_differ (w c : Z) :
  c <> 0 ->
  c <> c * (2 * w) /\ (c * 2 <> c * (2 * w) \/ w = 1).
Proof.
  intros Hc. split.
  - intros E. assert (Z : c * (2 * w - 1) = 0) by lia.
    apply Z.mul_eq_0 in Z. lia.
  - destruct (Z.eq_dec w 1) as [-> | N]; [right; reflexivity | left].
    intros E. apply Z.mul_reg_l in E; [lia | exact Hc].
Qed.

(** X6: for a converter ratio other than 0 and any [wck_ck_ratio], the
    targets listed in [clock_mapping] are pairwise distinct and so are its
    sources: no two listed domains are sent to the same target.  Domains
    the table does not list are outside this statement. *)
Theorem clock_mapping_listed_distinct (dd mw : bool) (w c : Z) :
  c <> 0 ->
  NoDup (map snd (clock_mapping (mkArgs dd mw w c))) /\
  NoDup (Dict.keys (clock_mapping (mkArgs dd mw w c))).
Proof.
  intros Hc. destruct (scaled_ratios_differ w c Hc) as [A1 A2].
  unfold clock_mapping, add_mapping_pair, Dict.keys.
  cbn [fold_left wck_ck_ratio dfi_converter_ratio].
  run_sets; cbn [map fst snd];
    (split; repeat constructor; cbn [In];
     intros H; repeat destruct H as [H | H]; try names_clash;
     first [ exact (sys_not_sys_x _ H) | exact (sys_not_sys_x_180 _ H)
           | exact (sys_not_sys_x _ (eq_sym H))
           | exact (sys_not_sys_x_180 _ (eq_sym H))
           | contradiction ]).
Qed.

Lemma clock_mapping_listed_distinct_witness :
  2 <> 0 /\ NoDup (map snd (clock_mapping (mkArgs false true 4 2))).
Proof.
  split; [discriminate |].
  apply (clock_mapping_listed_distinct false true 4 2). discriminate.
Defined.

(** X11: with [wck_ck_ratio = 4] the loop over [[2, 2*wck_ck_ratio]] lists
    [sys2x] and [sys8x] but not [sys4x]: the command/address pair [sys4x],
    [sys4x_180] of the ratio-1 plan is no source of [clock_mapping],
    whatever the converter ratio, whereas with [wck_ck_ratio = 2] it is
    listed and sent to [sys{4c}x], [sys{4c}x_180].  At ratio 2 the listed
    [sys2x] is sent to [sys4x], the name the unlisted domain keeps. *)
Theorem clock_mapping_skips_ca_domain (dd mw : bool) (f c : Z) :
  Dict.get (get_clocks f 4 1) (sys_x 4) = Some (mkClock (4 * f) None) /\
  Dict.get (get_clocks f 4 1) (sys_x_180 4)
  = Some (mkClock (4 * f) (Some 180)) /\
  Dict.get (clock_mapping (mkArgs dd mw 4 c)) (sys_x 4) = None /\
  Dict.get (clock_mapping (mkArgs dd mw 4 c)) (sys_x_180 4) = None /\
  Dict.get (clock_mapping (mkArgs dd mw 2 c)) (sys_x 4)
  = Some (sys_x (c * 4)) /\
  Dict.get (clock_mapping (mkArgs dd mw 2 c)) (sys_x_180 4)
  = Some (sys_x_180 (c * 4)) /\
  Dict.get (clock_mapping (mkArgs dd mw 4 2)) (sys_x 2) = Some (sys_x 4).
Proof.
  destruct (get_clocks_pair f 4 1 4) as [G G'];
    [apply in_multipliers; lia |].
  split; [exact G | split; [exact G' |]].
  unfold clock_mapping, add_mapping_pair.
  cbn [fold_left wck_ck_ratio dfi_converter_ratio].
  rewrite !get_set. autorewrite with names.
  repeat split; reflexivity.
Qed.

(** X7: with a converter ratio of 1 and any [wck_ck_ratio], the mapping
    sends [sys] to [sys1x] and every other source to itself, and [sys1x]
    is, in the plan for ratio 1, the same clock as [sys]: the mapping
    changes no frequency and no phase. *)
Theorem clock_mapping_ratio_1 (dd mw : bool) (f w : Z) :
  Forall (fun m => m = ("sys", "sys1x") \/ snd m = fst m)
         (clock_mapping (mkArgs dd mw w 1)) /\
  Dict.get (get_clocks f w 1) "sys1x" = Dict.get (get_clocks f w 1) "sys".
Proof.
  split.
  - unfold clock_mapping, add_mapping_pair.
    cbn [fold_left wck_ck_ratio dfi_converter_ratio].
    rewrite !Z.mul_1_l.
    repeat apply forall_set; try (right; reflexivity).
    constructor; [left; reflexivity | constructor].
  - rewrite get_clocks_sys.
    destruct (get_clocks_pair f w 1 1) as [G _];
      [apply in_multipliers; lia |].
    change "sys1x" with (sys_x 1). rewrite G. unfold plain.
    rewrite Z.mul_1_l. reflexivity.
Qed.

(** ** The frequencies handed to the PHY and to the DRAM simulator *)

(** X8: the frequency [SimSoC.__init__] instantiates the PHY with, and
    gives the DRAM simulator as [ck_freq], is the frequency that the plan
    made for the same ratios holds for the domain [sys] is remapped to. *)
Theorem phy_clock_is_remapped_sys (dd mw : bool) (f w c : Z) :
  let a := mkArgs dd mw w c in
  exists target,
    Dict.get (clock_mapping a) "sys" = Some target /\
    Dict.get (get_clocks f w c) target
    = Some (mkClock (phy_sys_clk_freq (ddrphy_args a f)) None) /\
    sim_ck_freq (lpddr5sim_args a f) = phy_sys_clk_freq (ddrphy_args a f).
Proof.
  cbn zeta. exists (sys_x c). split; [apply clock_mapping_get_sys |].
  split; [| reflexivity].
  apply get_clocks_pair, in_multipliers. lia.
Qed.

(** X9: the clock domain named to the simulator's logger, [clk_freq_cd],
    is a 0-degree domain of the plan made for the same ratios, and the
    plan gives it exactly the frequency passed as [clk_freq]. *)
Theorem logger_clock_in_plan (dd mw : bool) (f w c : Z) :
  let a := mkArgs dd mw w c in
  Dict.get (get_clocks f w c) (logger_clk_freq_cd (lpddr5sim_args a f))
  = Some (mkClock (logger_clk_freq (lpddr5sim_args a f)) None).
Proof.
  cbn zeta. unfold lpddr5sim_args.
  cbn [logger_clk_freq_cd logger_clk_freq wck_ck_ratio dfi_converter_ratio].
  apply get_clocks_pair, in_multipliers. lia.
Qed.

(** ** Shape of the timings dictionary *)

Lemma checker_tCK_some_nonzero (f n : Z) (x : float) :
  checker_tCK f n = Some x -> f <> 0 /\ n <> 0.
Proof.
  unfold checker_tCK, float_div_int.
  destruct (Z.eqb_spec f 0) as [-> | Hf]; [discriminate |].
  destruct (float_of_int f); [| discriminate].
  destruct (Z.eqb_spec n 0) as [-> | Hn]; [discriminate |].
  auto.
Qed.

(** X10: whenever [SimSoC.__init__] can build the [timings] dictionary,
    neither the system frequency nor the number of phases is 0 (either
    would raise a division by zero), the keys are [tCK] followed by the six
    speedgrade names and the five technology names, and no name is bound
    to [None]: the module supplies every timing the checker is given. *)
Theorem checker_timings_complete
    (a : SimSoCArgs) (f n : Z) (t : Dict.dict timing) :
  checker_timings a f n = Some t ->
  f <> 0 /\ n <> 0 /\
  Dict.keys t =
    [ "tCK"; "tRP"; "tRCD"; "tWR"; "tRFC"; "tFAW"; "tRAS";
      "tREFI"; "tWTR"; "tCCD"; "tRRD"; "tZQCS" ] /\
  Forall (fun e => snd e <> TNone) t.
Proof.
  intros H.
  destruct (checker_timings_entries a f n t H) as (tck & Htck & _ & _ & K).
  destruct (checker_tCK_some_nonzero f n tck Htck) as [Hf Hn].
  repeat split; try assumption.
  unfold checker_timings in H. rewrite Htck in H. injection H as <-.
  repeat constructor; discriminate.
Qed.

Lemma checker_timings_complete_witness :
  exists t,
    checker_timings (mkArgs true false 4 2) 50000000 2 = Some t /\
    Forall (fun e => snd e <> TNone) t.
Proof.
  eexists. split; [vm_compute; reflexivity |].
  eapply (checker_timings_complete (mkArgs true false 4 2) 50000000 2).
  vm_compute. reflexivity.
Defined.

(** * Worked cases *)

Example str_int_cases :
  str_int 16 = "16" /\ str_int 0 = "0" /\ str_int (-3) = "-3".
Proof. repeat split. Qed.

(** The default configuration: 100 MHz, [wck_ck_ratio=2], no conversion. *)
Example get_clocks_default :
  get_clocks 100000000 2 1 =
  [ ("sys",       mkClock 100000000 None);
    ("sys1x",     mkClock 100000000 None);
    ("sys1x_180", mkClock 100000000 (Some 180));
    ("sys2x",     mkClock 200000000 None);
    ("sys2x_180", mkClock 200000000 (Some 180));
    ("sys4x",     mkClock 400000000 None);
    ("sys4x_180", mkClock 400000000 (Some 180)) ].
Proof. reflexivity. Qed.

Example get_clocks_w4_c2 :
  Dict.keys (get_clocks 100000000 4 2) =
  [ "sys"; "sys2x"; "sys2x_180"; "sys4x"; "sys4x_180";
    "sys8x"; "sys8x_180"; "sys16x"; "sys16x_180" ].
Proof. reflexivity. Qed.

(** With a converter ratio of 0 every multiplier is 0 and the plan
    collapses to three entries. *)
Example get_clocks_c0 :
  Dict.keys (get_clocks 100000000 2 0) = ["sys"; "sys0x"; "sys0x_180"].
Proof. reflexivity. Qed.

Example clock_mapping_w4_c2 :
  clock_mapping (mkArgs false true 4 2) =
  [ ("sys", "sys2x");
    ("sys2x", "sys4x"); ("sys2x_180", "sys4x_180");
    ("sys8x", "sys16x"); ("sys8x_180", "sys16x_180") ].
Proof. reflexivity. Qed.

(** 100 MHz: a [tCK] of 10.0 ns for one phase and of 5.0 ns for two
    phases; a PHY converted by 2 is clocked at 200 MHz. *)
Example checker_tCK_100MHz :
  checker_tCK 100000000 1 = Some (S754_finite false 5629499534213120 (-49)) /\
  checker_tCK 100000000 2 = Some (S754_finite false 5629499534213120 (-50)) /\
  phy_sys_clk_freq (ddrphy_args (mkArgs false true 2 2) 100000000)
  = 200000000.
Proof. repeat split; vm_compute; reflexivity. Qed.

(** [1e9 / 0] raises. *)
Example checker_tCK_zero_freq : checker_tCK 0 1 = None.
Proof. reflexivity. Qed.

Example checker_timings_default :
  checker_timings (mkArgs false true 2 1) 100000000 1 =
  Some [ ("tCK",   TFloat (S754_finite false 5629499534213120 (-49)));
         ("tRP",   TTuple (Some 2) (Some 21));
         ("tRCD",  TTuple (Some 2) (Some 18));
         ("tWR",   TTuple (Some 3) (Some 34));
         ("tRFC",  TInt 210);
         ("tFAW",  TInt 20);
         ("tRAS",  TTuple (Some 3) (Some 42));
         ("tREFI", TFloat (S754_finite false 8589934592000000 (-41)));
         ("tWTR",  TTuple (Some 4) (Some 12));
         ("tCCD",  TTuple (Some 32) None);
         ("tRRD",  TTuple (Some 2) (Some 5));
         ("tZQCS", TTuple (Some 128) (Some 80)) ].
Proof. vm_compute. reflexivity. Qed.

(** Activates in cycles 0, 1, 2 and 6 with [init_done] set from cycle 2:
    the violation of cycle 1 stays silent, that of cycle 2 is reported. *)
Example row_cycle_gate :
  let before := [true; true] in
  let after := [true; false; false; false; true] in
  DFITimingsChecker.occurring
    DFITimingsChecker.RowCycle.findings DFITimingsChecker.RowCycle.commit
    DFITimingsChecker.RowCycle.init (before ++ after)
  = [[]; [1]; [1]; []; []; []; []] /\
  snd (DFITimingsChecker.soc_run
         DFITimingsChecker.RowCycle.findings DFITimingsChecker.RowCycle.commit
         (mkArgs true true 2 1) true DFITimingsChecker.RowCycle.init
         (map (pair false) before ++ map (pair true) after))
  = [1].
Proof. split; reflexivity. Qed.

(** With a converter ratio of 0 the mapping does merge domains: [sys] and
    [sys2x] are both sent to [sys0x]. *)
Example clock_mapping_c0_merges :
  Dict.get (clock_mapping (mkArgs false true 2 0)) "sys" = Some "sys0x" /\
  Dict.get (clock_mapping (mkArgs false true 2 0)) "sys2x" = Some "sys0x".
Proof. split; reflexivity. Qed.

(** A [wck_ck_ratio] of 4 with a converter ratio of 3: the logger runs in
    [sys24x] at 24 times the system clock. *)
Example lpddr5sim_args_w4_c3 :
  lpddr5sim_args (mkArgs false true 4 3) 50000000 =
  mkSimArgs 150000000 4 true "sys24x" 1200000000 true.
Proof. reflexivity. Qed.
